(** * freshpy: the retrying GET executor and the session constructor

    A shallow embedding of [freshpy/api.py] and of [FreshPy.__init__] from
    [freshpy/core.py].  Python strings are [string], integers are [Z],
    exceptions are records of a class name and an argument, and the effects
    of a call (GET attempts, lines written to the error stream, pauses, JSON
    decoding) are recorded in an event trace threaded through a small
    state-and-exception monad. *)

From Stdlib Require Import String Ascii List ZArith QArith Bool Lia.
From Stdlib Require Import DecimalString.
From Equations Require Import Equations.
Import ListNotations.

Local Open Scope string_scope.
Local Open Scope Z_scope.

(** ** Python string operations used by the source *)

Module PyStr.

(** [c.lower()] and [c.upper()] on one ASCII character. *)
Definition lower_ascii (c : ascii) : ascii :=
  let n := nat_of_ascii c in
  if (Nat.leb 65 n && Nat.leb n 90)%bool then ascii_of_nat (n + 32) else c.

Definition upper_ascii (c : ascii) : ascii :=
  let n := nat_of_ascii c in
  if (Nat.leb 97 n && Nat.leb n 122)%bool then ascii_of_nat (n - 32) else c.

Fixpoint map_ascii (f : ascii -> ascii) (s : string) : string :=
  match s with
  | EmptyString => EmptyString
  | String c s' => String (f c) (map_ascii f s')
  end.

(** [s.lower()], [s.upper()] on ASCII text (class names; the request type,
    which the source only ever gives as ["get"]). *)
Definition lower : string -> string := map_ascii lower_ascii.
Definition upper : string -> string := map_ascii upper_ascii.

(** [s.startswith(p)]. *)
Fixpoint startswith (s p : string) {struct p} : bool :=
  match p, s with
  | EmptyString, _ => true
  | String _ _, EmptyString => false
  | String a p', String b s' => (Ascii.eqb a b && startswith s' p')%bool
  end.

(** [p in s] for strings: [p] occurs somewhere in [s]. *)
Fixpoint contains (p s : string) : bool :=
  (startswith s p ||
   match s with
   | EmptyString => false
   | String _ s' => contains p s'
   end)%bool.

(** [s.endswith(String c "")] for a one-character suffix. *)
Fixpoint endswith_char (s : string) (c : ascii) : bool :=
  match s with
  | EmptyString => false
  | String a EmptyString => Ascii.eqb a c
  | String _ s' => endswith_char s' c
  end.

(** [s[:-1]]: all but the last character (the empty string stays empty). *)
Fixpoint drop_last (s : string) : string :=
  match s with
  | EmptyString => EmptyString
  | String _ EmptyString => EmptyString
  | String a s' => String a (drop_last s')
  end.

(** [str(n)] for an integer, as an f-string renders it. *)
Definition of_int (n : Z) : string := NilZero.string_of_int (Z.to_int n).

(** Truth value of a string: the empty string is falsy. *)
Definition truthy (s : string) : bool :=
  match s with EmptyString => false | String _ _ => true end.

End PyStr.

(** ** Exceptions, responses and values *)

(** An exception object: [type(e).__name__] and the argument it was built
    with.  For the library exceptions rendered by the source, [str(e)] is
    that argument. *)
Record pyexc : Type := mkExc { exc_name : string; exc_arg : string }.

(** The transport response of [requests.get]: the fields the source reads. *)
Record Response : Type := mkResponse { status_code : Z; text : string }.

(** The Python values this code handles and returns. *)
#[local] Set Warnings "-register-all".
Inductive pyval : Type :=
| VNone
| VBool (b : bool)
| VInt (n : Z)
| VStr (s : string)
| VList (l : list pyval)
| VDict (d : list (string * pyval))
| VExc (e : pyexc)
| VResponse (r : Response)
| VOpaque (name : string).

(** Outcome of a computation that may raise.  [Raise] carries an exception
    whose class derives from [Exception]; [Abort] one whose class does not
    ([KeyboardInterrupt], [SystemExit] and the like), which no
    [except Exception] clause catches. *)
Inductive result (A : Type) : Type :=
| Return (a : A)
| Raise (e : pyexc)
| Abort (e : pyexc).
Arguments Return {A} a.
Arguments Raise {A} e.
Arguments Abort {A} e.

(** ** Effects *)

Definition headers_t := list (string * string).

Inductive event : Type :=
| EvGet (url : string) (headers : headers_t) (auth : string * string)
        (verify : bool)
| EvStderr (line : string)
| EvStdout (line : string)
| EvSleep (seconds : Q)
| EvJson (r : Response).

(** The world a call runs in: how many GETs were issued and what happened,
    oldest event first. *)
Record world : Type := mkWorld { issued : nat; trace : list event }.

Definition world0 : world := mkWorld 0 [].

Definition M (A : Type) : Type := world -> result A * world.

Definition ret {A} (a : A) : M A := fun w => (Return a, w).

Definition raise {A} (e : pyexc) : M A := fun w => (Raise e, w).

Definition bind {A B} (m : M A) (k : A -> M B) : M B :=
  fun w =>
    match m w with
    | (Return a, w') => k a w'
    | (Raise e, w') => (Raise e, w')
    | (Abort e, w') => (Abort e, w')
    end.

(** [try: m  except Exception as e: h e]: an exception outside
    [Exception] passes through. *)
Definition try_except {A} (m : M A) (h : pyexc -> M A) : M A :=
  fun w =>
    match m w with
    | (Return a, w') => (Return a, w')
    | (Raise e, w') => h e w'
    | (Abort e, w') => (Abort e, w')
    end.

Definition emit (e : event) : M unit :=
  fun w => (Return tt, mkWorld (issued w) (trace w ++ [e])).

Declare Scope py_scope.
Delimit Scope py_scope with py.
Notation "x <- m ;; k" := (bind m (fun x => k))
  (at level 61, m at next level, right associativity) : py_scope.
Notation "m ;;; k" := (bind m (fun _ => k))
  (at level 61, right associativity) : py_scope.
Local Open Scope py_scope.

(** Projections of a trace. *)
Definition is_get (e : event) : bool :=
  match e with EvGet _ _ _ _ => true | _ => false end.
Definition is_sleep (e : event) : bool :=
  match e with EvSleep _ => true | _ => false end.
Definition is_json (e : event) : bool :=
  match e with EvJson _ => true | _ => false end.

Fixpoint stderr_lines (t : list event) : list string :=
  match t with
  | [] => []
  | EvStderr l :: t' => l :: stderr_lines t'
  | _ :: t' => stderr_lines t'
  end.

Definition count_events (p : event -> bool) (t : list event) : nat :=
  List.length (filter p t).

(** ** freshpy.api *)

(** [define_headers()]. *)
Definition define_headers : headers_t :=
  [("Content-Type", "application/json")].

(** [define_auth(api_key)]. *)
Definition define_auth (api_key : string) : string * string :=
  (api_key, "X").

(** The core object of [freshpy/core.py]: the attributes set by
    [__init__]. *)
Record FreshPy : Type := mkFreshPy {
  version : string;
  domain : string;
  base_url : string;
  api_key : string
}.

(** Outcome of one call of [requests.get]: a response, an exception whose
    class derives from [Exception], or one whose class does not. *)
Inductive get_outcome : Type :=
| GetOk (r : Response)
| GetExc (e : pyexc)
| GetAbort (e : pyexc).

(** The test of [_report_failed_attempt]:
    ["connect" not in _exc_name.lower()], negated. *)
Definition is_connection_class (e : pyexc) : bool :=
  PyStr.contains "connect" (PyStr.lower (exc_name e)).

Definition newline : string := String "010" EmptyString.

(** The line [_report_failed_attempt] hands to [eprint]. *)
Definition failed_attempt_report (e : pyexc) (request_type : string)
    (retries : Z) : string :=
  let _exc_name := exc_name e in
  let _current_attempt := "(Attempt " ++ PyStr.of_int retries ++ " of 5)" in
  let _error_msg :=
    ("The " ++ PyStr.upper request_type
       ++ " request has failed with the following exception: ")
    ++ (_exc_name ++ ": " ++ exc_arg e ++ " " ++ _current_attempt) in
  _error_msg ++ newline ++ _exc_name ++ ": " ++ exc_arg e ++ newline.

(** [_report_failed_attempt(_exc_msg, _request_type, _retries)];
    [errors.handlers.eprint] writes its argument to the error stream. *)
Definition _report_failed_attempt (_exc_msg : pyexc) (_request_type : string)
    (_retries : Z) : M unit :=
  let _exc_name := exc_name _exc_msg in
  if negb (PyStr.contains "connect" (PyStr.lower _exc_name)) then
    raise (mkExc "RuntimeError" (_exc_name ++ ": " ++ exc_arg _exc_msg))
  else
    emit (EvStderr (failed_attempt_report _exc_msg _request_type _retries)).

Definition _failure_msg : string :=
  "The script was unable to complete successfully after five consecutive API timeouts. "
  ++ "Please run the script again or contact Freshservice Support for further assistance.".

(** [_raise_exception_for_repeated_timeouts()]. *)
Definition _raise_exception_for_repeated_timeouts {A} : M A :=
  raise (mkExc "APIConnectionError" _failure_msg).

(** Names bound at module level in [api.py].  A name the function never
    assigns is looked up here (no builtin is called [i]). *)
Definition module_globals : list string :=
  ["requests"; "time"; "random"; "errors"; "log_utils"; "logger";
   "define_headers"; "define_auth"; "get_request_with_retries";
   "_report_failed_attempt"; "_raise_exception_for_repeated_timeouts"].

Definition load_global (name : string) : M pyval :=
  if existsb (String.eqb name) module_globals then ret (VOpaque name)
  else raise (mkExc "NameError" ("name '" ++ name ++ "' is not defined")).

(** [5 ** v]: defined on integers only in this model. *)
Definition pow5 (v : pyval) : M Q :=
  match v with
  | VInt n => ret (Qpower (5 # 1) n)
  | VBool b => ret (if b then 5 # 1 else 1 # 1)
  | _ => raise (mkExc "TypeError" "unsupported operand type(s) for ** or pow()")
  end.

Section Transport.

(** The network: outcome of the GET issued when [i] were issued before. *)
Variable net : nat -> get_outcome.
(** [response.json()] of the [requests] library. *)
Variable response_json : Response -> result pyval.
(** [random.random()] and the rendering of [{delay:.2f}]. *)
Variable random_random : Q.
Variable format_2f : Q -> string.

(** [requests.get(query_url, headers=..., auth=..., verify=...)]. *)
Definition requests_get (url : string) (headers : headers_t)
    (auth : string * string) (verify : bool) : M Response :=
  fun w =>
    let w' := mkWorld (S (issued w))
                      (trace w ++ [EvGet url headers auth verify]) in
    match net (issued w) with
    | GetOk r => (Return r, w')
    | GetExc e => (Raise e, w')
    | GetAbort e => (Abort e, w')
    end.

Definition json_of (r : Response) : M pyval :=
  fun w => (response_json r, mkWorld (issued w) (trace w ++ [EvJson r])).

(** Iterations the loop can still make: its termination measure. *)
Definition remaining (retries : Z) : nat := Z.to_nat (6 - retries).
Arguments remaining : simpl never.

(** The [while retries <= 5] loop of [get_request_with_retries]; it
    yields the final [retries] and [response]. *)
Equations? retry_loop (url : string) (headers : headers_t)
    (auth : string * string) (verify : bool) (retries : Z) (w : world)
    : result (Z * option Response) * world
    by wf (remaining retries) lt :=
  retry_loop url headers auth verify retries w with Z_le_gt_dec retries 5 => {
    | right _ => (Return (retries, None), w)
    | left Hle with requests_get url headers auth verify w => {
        | (Return response, w1) => (Return (retries, Some response), w1)
        | (Abort e, w1) => (Abort e, w1)
        | (Raise exc_msg, w1)
            with _report_failed_attempt exc_msg "get" retries w1 => {
            | (Return _, w2) =>
                retry_loop url headers auth verify (retries + 1) w2
            | (Raise e, w2) => (Raise e, w2)
            | (Abort e, w2) => (Abort e, w2) } } }.
Proof. unfold remaining. lia. Qed.

(** The statements after the loop. *)
Definition after_loop (return_json : bool) (retries : Z)
    (response : option Response) : M pyval :=
  (if retries =? 6 then _raise_exception_for_repeated_timeouts
   else ret tt) ;;;
  if return_json then
    match response with
    | None =>
        raise (mkExc "AttributeError"
                 "'NoneType' object has no attribute 'status_code'")
    | Some r =>
        (if status_code r =? 429 then
           i <- load_global "i" ;;
           p <- pow5 i ;;
           let delay := (p + random_random * (5 # 1))%Q in
           emit (EvStdout ("Rate detected. Retrying in "
                             ++ format_2f delay ++ "s")) ;;;
           emit (EvSleep delay)
         else ret tt) ;;;
        if status_code r =? 404 then
          ret (VDict [("status", VStr "error");
                      ("status_code", VInt 404);
                      ("error_message", VStr "Data not found")])
        else
          try_except (json_of r)
            (fun exc_msg =>
               ret (VDict [("status", VStr "exception");
                           ("status_code", VNone);
                           ("error_message", VExc exc_msg)]))
    end
  else
    ret (match response with
         | Some r => VResponse r
         | None => VNone
         end).

(** [not headers]: [None] and the empty dictionary are falsy. *)
Definition py_not_headers (headers : option headers_t) : bool :=
  match headers with
  | None | Some [] => true
  | Some (_ :: _) => false
  end.

(** [get_request_with_retries(fresh_object, uri, headers, return_json,
    verify_ssl)]. *)
Definition get_request_with_retries (fresh_object : FreshPy) (uri : string)
    (headers : option headers_t) (return_json verify_ssl : bool)
    : M pyval :=
  let headers := if py_not_headers headers then define_headers
                 else match headers with Some h => h | None => [] end in
  let credentials := define_auth (api_key fresh_object) in
  let query_url := base_url fresh_object ++ uri in
  fun w =>
    match retry_loop query_url headers credentials verify_ssl 0 w with
    | (Return (retries, response), w') =>
        after_loop return_json retries response w'
    | (Raise e, w') => (Raise e, w')
    | (Abort e, w') => (Abort e, w')
    end.

End Transport.

(** ** freshpy.core: [FreshPy.__init__] *)

(** [not x] for an argument that is [None] or a string. *)
Definition py_not (x : option string) : bool :=
  match x with
  | None => true
  | Some s => negb (PyStr.truthy s)
  end.

(** [FreshPy(domain, api_key)]: the attributes [__init__] sets, or the
    exception it raises.  [full_version] is what
    [version.get_full_version()] returns. *)
Definition FreshPy_init (full_version : string)
    (domain api_key : option string) : result FreshPy :=
  if (py_not domain || py_not api_key)%bool then
    Raise (mkExc "MissingRequiredDataError" "init")
  else
    match domain, api_key with
    | Some domain, Some api_key =>
        let domain :=
          if (PyStr.truthy domain && negb (PyStr.startswith domain "http"))%bool
          then "https://" ++ domain else domain in
        let domain :=
          if PyStr.endswith_char domain "/" then PyStr.drop_last domain
          else domain in
        Return (mkFreshPy full_version domain (domain ++ "/api/v2/") api_key)
    | _, _ => Raise (mkExc "MissingRequiredDataError" "init")
    end.

(** Wording of the specification: an address carries a scheme when it
    holds the separator ["://"]. *)
Definition spec_has_scheme (address : string) : bool :=
  PyStr.contains "://" address.

(** ** Shapes of runs, used to state the properties *)

(** The attempts numbered [j], [j + 1], ... raise the exceptions [es]. *)
Fixpoint fails_from (net : nat -> get_outcome) (j : nat)
    (es : list pyexc) : Prop :=
  match es with
  | [] => True
  | e :: es' => net j = GetExc e /\ fails_from net (S j) es'
  end.

(** What the exceptions [es], raised by consecutive attempts that are then
    reported, leave in the trace; [retries] is the counter at the first of
    them. *)
Fixpoint failure_events (url : string) (headers : headers_t)
    (auth : string * string) (verify : bool) (retries : Z)
    (es : list pyexc) : list event :=
  match es with
  | [] => []
  | e :: es' =>
      EvGet url headers auth verify
        :: EvStderr (failed_attempt_report e "get" retries)
        :: failure_events url headers auth verify (retries + 1) es'
  end.

(** The lines the failures [es] put on the error stream. *)
Fixpoint reports (retries : Z) (es : list pyexc) : list string :=
  match es with
  | [] => []
  | e :: es' =>
      failed_attempt_report e "get" retries :: reports (retries + 1) es'
  end.

(** The headers a call sends: the default ones when none are given. *)
Definition effective_headers (headers : option headers_t) : headers_t :=
  match headers with
  | None | Some [] => define_headers
  | Some h => h
  end.

(** A computation only ever appends to the trace. *)
Definition grows {A} (m : M A) : Prop :=
  forall w, exists t, trace (snd (m w)) = (trace w ++ t)%list.

(** ** freshpy.core: [FreshPy.get] *)

(** [self.get(uri, headers, return_json, verify_ssl)]: the method hands its
    arguments, and the object itself, to [api.get_request_with_retries]. *)
Definition FreshPy_get (net : nat -> get_outcome)
    (response_json : Response -> result pyval) (random_random : Q)
    (format_2f : Q -> string) (self : FreshPy) (uri : string)
    (headers : option headers_t) (return_json verify_ssl : bool) : M pyval :=
  get_request_with_retries net response_json random_random format_2f
    self uri headers return_json verify_ssl.

(** ** Runs on an arbitrary network *)

Definition is_stdout (e : event) : bool :=
  match e with EvStdout _ => true | _ => false end.

(** The connection-class exceptions raised by the attempts [j], [j + 1],
    ... up to the first attempt that ends otherwise, [fuel] of them at
    most. *)
Fixpoint conn_prefix (net : nat -> get_outcome) (j fuel : nat)
    : list pyexc :=
  match fuel with
  | O => []
  | S fuel' =>
      match net j with
      | GetOk _ | GetAbort _ => []
      | GetExc e =>
          if is_connection_class e then e :: conn_prefix net (S j) fuel'
          else []
      end
  end.

(** ** Sample inputs *)

Definition sample_session : FreshPy :=
  mkFreshPy "2.0.0" "https://example.freshservice.com"
            "https://example.freshservice.com/api/v2/" "k1".

Definition connection_error : pyexc :=
  mkExc "ConnectionError" "Connection refused".

Definition read_timeout : pyexc := mkExc "ReadTimeout" "Read timed out.".

(** A network whose first [k] attempts are refused and whose later ones
    all end in [o]. *)
Definition net_after (k : nat) (o : get_outcome) : nat -> get_outcome :=
  fun i => if Nat.ltb i k then GetExc connection_error else o.

(** A decoder that accepts the empty JSON array only. *)
Definition sample_json (r : Response) : result pyval :=
  if String.eqb (text r) "[]" then Return (VList [])
  else Raise (mkExc "JSONDecodeError"
                "Expecting value: line 1 column 1 (char 0)").

Definition sample_format (d : Q) : string := "?".

Definition sample_uri : string := "tickets/42".

(** A call of [sample_session.get("tickets/42")] on the network [net]. *)
Definition sample_run (net : nat -> get_outcome) (return_json : bool)
    : result pyval * world :=
  get_request_with_retries net sample_json (1 # 2)%Q sample_format
    sample_session sample_uri None return_json true world0.

Definition sample_get : event :=
  EvGet "https://example.freshservice.com/api/v2/tickets/42"
        define_headers ("k1", "X") true.

Definition sample_failures (es : list pyexc) : list event :=
  failure_events "https://example.freshservice.com/api/v2/tickets/42"
                 define_headers ("k1", "X") true 0 es.

(** * Properties *)

(** ** Strings *)

Lemma startswith_app (p t : string) : PyStr.startswith (p ++ t) p = true.
Proof.
  induction p as [|a p IH]; simpl; [reflexivity|].
  now rewrite Ascii.eqb_refl, IH.
Qed.

Lemma startswith_inv (s p : string) :
  PyStr.startswith s p = true -> exists t, s = p ++ t.
Proof.
  revert s; induction p as [|a p IH]; intros s H.
  - now exists s.
  - destruct s as [|b s]; simpl in H; [discriminate|].
    apply andb_true_iff in H as [Hab Hs].
    apply Ascii.eqb_eq in Hab; subst b.
    destruct (IH _ Hs) as [t ->]. now exists t.
Qed.

Lemma app_assoc_str (a b c : string) : (a ++ b) ++ c = a ++ (b ++ c).
Proof. induction a as [|x a IH]; simpl; [reflexivity | now rewrite IH]. Qed.

Lemma app_empty_r (a : string) : a ++ EmptyString = a.
Proof. induction a as [|x a IH]; simpl; [reflexivity | now rewrite IH]. Qed.

Lemma contains_unfold (p s : string) :
  PyStr.contains p s =
  (PyStr.startswith s p ||
   match s with
   | EmptyString => false
   | String _ s' => PyStr.contains p s'
   end)%bool.
Proof. destruct s; reflexivity. Qed.

(** [p in s] holds exactly when [s] splits around an occurrence of [p]. *)
Lemma contains_iff (p s : string) :
  PyStr.contains p s = true <-> exists pre post, s = pre ++ p ++ post.
Proof.
  split.
  - induction s as [|c s IH]; simpl; intros H;
      apply orb_true_iff in H as [H|H].
    + apply startswith_inv in H as [t Ht]. now exists EmptyString, t.
    + discriminate.
    + apply startswith_inv in H as [t Ht]. now exists EmptyString, t.
    + destruct (IH H) as (pre & post & ->). now exists (String c pre), post.
  - intros (pre & post & ->).
    induction pre as [|c pre IH].
    + rewrite contains_unfold. change (EmptyString ++ p ++ post) with (p ++ post).
      now rewrite startswith_app.
    + change (String c pre ++ p ++ post) with (String c (pre ++ p ++ post)).
      rewrite contains_unfold. cbv beta iota.
      rewrite IH. apply orb_true_r.
Qed.

Lemma endswith_char_app (t : string) (c : ascii) :
  PyStr.endswith_char (t ++ String c EmptyString) c = true.
Proof.
  induction t as [|a t IH]; simpl.
  - apply Ascii.eqb_refl.
  - destruct (t ++ String c EmptyString) eqn:E; [|exact IH].
    destruct t; discriminate.
Qed.

Lemma endswith_char_inv (s : string) (c : ascii) :
  PyStr.endswith_char s c = true -> exists t, s = t ++ String c EmptyString.
Proof.
  induction s as [|a s IH]; simpl; [discriminate|].
  destruct s as [|b s].
  - intros H. apply Ascii.eqb_eq in H; subst. now exists EmptyString.
  - intros H. destruct (IH H) as [t Ht]. exists (String a t).
    simpl. now rewrite <- Ht.
Qed.

Lemma drop_last_app (t : string) (c : ascii) :
  PyStr.drop_last (t ++ String c EmptyString) = t.
Proof.
  induction t as [|a t IH]; simpl; [reflexivity|].
  destruct (t ++ String c EmptyString) eqn:E.
  - destruct t; discriminate.
  - now rewrite IH.
Qed.

(** ** The retry loop *)

Section RetryLoop.

Variable net : nat -> get_outcome.
Variables (url : string) (headers : headers_t) (auth : string * string)
          (verify : bool).

Local Abbreviation loop := (retry_loop net url headers auth verify).
Local Abbreviation fails_from := (fails_from net).
Local Abbreviation failure_events :=
  (failure_events url headers auth verify).

(** One iteration of the loop, as the source reads. *)
Lemma retry_loop_eq (retries : Z) (w : world) :
  loop retries w =
  if retries <=? 5 then
    match requests_get net url headers auth verify w with
    | (Return response, w1) => (Return (retries, Some response), w1)
    | (Raise exc_msg, w1) =>
        match _report_failed_attempt exc_msg "get" retries w1 with
        | (Return _, w2) => loop (retries + 1) w2
        | (Raise e, w2) => (Raise e, w2)
        | (Abort e, w2) => (Abort e, w2)
        end
    | (Abort e, w1) => (Abort e, w1)
    end
  else (Return (retries, None), w).
Proof.
  simp retry_loop.
  destruct (Z_le_gt_dec retries 5) as [Hle|Hgt]; simpl.
  - rewrite (proj2 (Z.leb_le _ _) Hle).
    destruct (requests_get net url headers auth verify w) as [[r|e|e] w1];
      simpl; [reflexivity| |reflexivity].
    destruct (_report_failed_attempt e "get" retries w1) as [[[]|e'|e'] w2];
      reflexivity.
  - rewrite (proj2 (Z.leb_gt _ _) (Z.gt_lt _ _ Hgt)). reflexivity.
Qed.


Lemma report_connection (e : pyexc) (rt : string) (n : Z) (w : world) :
  is_connection_class e = true ->
  _report_failed_attempt e rt n w =
  (Return tt,
   mkWorld (issued w) (trace w ++ [EvStderr (failed_attempt_report e rt n)])).
Proof.
  unfold _report_failed_attempt, is_connection_class. now intros ->.
Qed.

Lemma report_fatal (e : pyexc) (rt : string) (n : Z) (w : world) :
  is_connection_class e = false ->
  _report_failed_attempt e rt n w =
  (Raise (mkExc "RuntimeError" (exc_name e ++ ": " ++ exc_arg e)), w).
Proof.
  unfold _report_failed_attempt, is_connection_class. now intros ->.
Qed.

(** Connection-class failures are reported and retried: the loop goes
    on from the counter advanced by their number. *)
Lemma retry_loop_failures (es : list pyexc) :
  forall (retries : Z) (w : world),
    fails_from (issued w) es ->
    forallb is_connection_class es = true ->
    retries + Z.of_nat (length es) <= 6 ->
    loop retries w =
    loop (retries + Z.of_nat (length es))
         (mkWorld (issued w + length es)
                  (trace w ++ failure_events retries es)).
Proof.
  induction es as [|e es IH]; intros retries w Hnet Hconn Hle.
  - simpl. rewrite Z.add_0_r, Nat.add_0_r, app_nil_r.
    now destruct w.
  - simpl in Hconn. apply andb_true_iff in Hconn as [He Hes].
    simpl length in *. rewrite retry_loop_eq.
    replace (retries <=? 5) with true by (symmetry; apply Z.leb_le; lia).
    destruct Hnet as [Hhead Htail].
    unfold requests_get. rewrite Hhead.
    rewrite report_connection by exact He. cbn [issued trace].
    rewrite IH; cbn [issued trace].
    + f_equal; [lia|]. f_equal; [lia|].
      now rewrite <- !app_assoc.
    + exact Htail.
    + exact Hes.
    + lia.
Qed.

(** The three ways the loop ends, after the failures [es]. *)
Lemma retry_loop_success (es : list pyexc) (r : Response) :
  fails_from 0 es ->
  forallb is_connection_class es = true ->
  (length es <= 5)%nat ->
  net (length es) = GetOk r ->
  loop 0 world0 =
  (Return (Z.of_nat (length es), Some r),
   mkWorld (S (length es))
           (failure_events 0 es ++ [EvGet url headers auth verify])).
Proof.
  intros Hnet Hconn Hlen Hok.
  rewrite (retry_loop_failures es) by (try assumption; simpl; lia).
  rewrite retry_loop_eq.
  replace (0 + Z.of_nat (length es) <=? 5) with true
    by (symmetry; apply Z.leb_le; lia).
  unfold requests_get. cbn [issued trace world0 Nat.add app].
  now rewrite Hok.
Qed.

Lemma retry_loop_fatal (es : list pyexc) (e : pyexc) :
  fails_from 0 es ->
  forallb is_connection_class es = true ->
  (length es <= 5)%nat ->
  net (length es) = GetExc e ->
  is_connection_class e = false ->
  loop 0 world0 =
  (Raise (mkExc "RuntimeError" (exc_name e ++ ": " ++ exc_arg e)),
   mkWorld (S (length es))
           (failure_events 0 es ++ [EvGet url headers auth verify])).
Proof.
  intros Hnet Hconn Hlen Hexc He.
  rewrite (retry_loop_failures es) by (try assumption; simpl; lia).
  rewrite retry_loop_eq.
  replace (0 + Z.of_nat (length es) <=? 5) with true
    by (symmetry; apply Z.leb_le; lia).
  unfold requests_get. cbn [issued trace world0 Nat.add app].
  rewrite Hexc. now rewrite report_fatal by exact He.
Qed.

Lemma retry_loop_aborted (es : list pyexc) (e : pyexc) :
  fails_from 0 es ->
  forallb is_connection_class es = true ->
  (length es <= 5)%nat ->
  net (length es) = GetAbort e ->
  loop 0 world0 =
  (Abort e,
   mkWorld (S (length es))
           (failure_events 0 es ++ [EvGet url headers auth verify])).
Proof.
  intros Hnet Hconn Hlen Hexc.
  rewrite (retry_loop_failures es) by (try assumption; simpl; lia).
  rewrite retry_loop_eq.
  replace (0 + Z.of_nat (length es) <=? 5) with true
    by (symmetry; apply Z.leb_le; lia).
  unfold requests_get. cbn [issued trace world0 Nat.add app].
  now rewrite Hexc.
Qed.

Lemma retry_loop_exhausted (es : list pyexc) :
  fails_from 0 es ->
  forallb is_connection_class es = true ->
  length es = 6%nat ->
  loop 0 world0 = (Return (6, None), mkWorld 6 (failure_events 0 es)).
Proof.
  intros Hnet Hconn Hlen.
  rewrite (retry_loop_failures es) by (try assumption; simpl; lia).
  rewrite retry_loop_eq, Hlen. reflexivity.
Qed.

Lemma stderr_lines_app (t1 t2 : list event) :
  stderr_lines (t1 ++ t2) = (stderr_lines t1 ++ stderr_lines t2)%list.
Proof.
  induction t1 as [|e t1 IH]; [reflexivity|].
  destruct e; simpl; now rewrite ?IH.
Qed.

Lemma stderr_failure_events (es : list pyexc) :
  forall retries, stderr_lines (failure_events retries es) = reports retries es.
Proof.
  induction es as [|e es IH]; intros retries; simpl; [reflexivity|].
  now rewrite IH.
Qed.

Lemma reports_length (es : list pyexc) :
  forall retries, length (reports retries es) = length es.
Proof.
  induction es as [|e es IH]; intros retries; simpl; [reflexivity|].
  now rewrite IH.
Qed.

Lemma reports_nth (es : list pyexc) :
  forall retries i e,
    nth_error es i = Some e ->
    nth_error (reports retries es) i =
    Some (failed_attempt_report e "get" (retries + Z.of_nat i)).
Proof.
  induction es as [|x es IH]; intros retries [|i] e H; simpl in *;
    try discriminate.
  - injection H as ->. now rewrite Z.add_0_r.
  - rewrite (IH _ _ _ H). do 2 f_equal. lia.
Qed.

Lemma count_failure_events_get (es : list pyexc) :
  forall retries,
    count_events is_get (failure_events retries es) = length es.
Proof.
  unfold count_events.
  induction es as [|e es IH]; intros retries; simpl; [reflexivity|].
  now rewrite IH.
Qed.

Lemma count_failure_events_other (p : event -> bool) (es : list pyexc) :
  (forall a b c d, p (EvGet a b c d) = false) ->
  (forall l, p (EvStderr l) = false) ->
  forall retries, count_events p (failure_events retries es) = 0%nat.
Proof.
  intros Hg Hs. unfold count_events.
  induction es as [|e es IH]; intros retries; simpl; [reflexivity|].
  rewrite Hg, Hs. apply IH.
Qed.

End RetryLoop.

(** ** The trace only grows *)

Lemma grows_ret {A} (a : A) : grows (ret a).
Proof. intros w. exists []. simpl. now rewrite app_nil_r. Qed.

Lemma grows_raise {A} (e : pyexc) : grows (@raise A e).
Proof. intros w. exists []. simpl. now rewrite app_nil_r. Qed.

Lemma grows_emit (e : event) : grows (emit e).
Proof. intros w. now exists [e]. Qed.

Lemma grows_bind {A B} (m : M A) (k : A -> M B) :
  grows m -> (forall a, grows (k a)) -> grows (bind m k).
Proof.
  intros Hm Hk w. unfold bind. destruct (Hm w) as [t1 H1].
  destruct (m w) as [[a|e|e] w1]; simpl in H1.
  - destruct (Hk a w1) as [t2 H2]. exists (t1 ++ t2)%list.
    now rewrite H2, H1, app_assoc.
  - now exists t1.
  - now exists t1.
Qed.

Lemma grows_try_except {A} (m : M A) (h : pyexc -> M A) :
  grows m -> (forall e, grows (h e)) -> grows (try_except m h).
Proof.
  intros Hm Hh w. unfold try_except. destruct (Hm w) as [t1 H1].
  destruct (m w) as [[a|e|e] w1]; simpl in H1.
  - now exists t1.
  - destruct (Hh e w1) as [t2 H2]. exists (t1 ++ t2)%list.
    now rewrite H2, H1, app_assoc.
  - now exists t1.
Qed.

Lemma grows_report (e : pyexc) (rt : string) (n : Z) :
  grows (_report_failed_attempt e rt n).
Proof.
  unfold _report_failed_attempt.
  destruct (negb _); [apply grows_raise | apply grows_emit].
Qed.

Lemma grows_requests_get net url headers auth verify :
  grows (requests_get net url headers auth verify).
Proof.
  intros w. exists [EvGet url headers auth verify]. unfold requests_get.
  now destruct (net (issued w)).
Qed.

Lemma grows_retry_loop net url headers auth verify (m : nat) :
  forall retries, remaining retries = m ->
  grows (retry_loop net url headers auth verify retries).
Proof.
  induction m as [|m IH]; intros retries Hm w; rewrite retry_loop_eq.
  - replace (retries <=? 5) with false
      by (symmetry; apply Z.leb_gt; unfold remaining in Hm; lia).
    exists []. simpl. now rewrite app_nil_r.
  - destruct (retries <=? 5) eqn:Hle;
      [|exists []; simpl; now rewrite app_nil_r].
    destruct (grows_requests_get net url headers auth verify w) as [t1 H1].
    destruct (requests_get net url headers auth verify w) as [[r|e|e] w1];
      simpl in H1; [now exists t1| |now exists t1].
    destruct (grows_report e "get" retries w1) as [t2 H2].
    destruct (_report_failed_attempt e "get" retries w1) as [[[]|e'|e'] w2];
      simpl in H2.
    + assert (Hrem : remaining (retries + 1) = m)
        by (unfold remaining in *; lia).
      destruct (IH _ Hrem w2) as [t3 H3].
      exists (t1 ++ t2 ++ t3)%list. rewrite H3, H2, H1.
      now rewrite !app_assoc.
    + exists (t1 ++ t2)%list. simpl. now rewrite H2, H1, app_assoc.
    + exists (t1 ++ t2)%list. simpl. now rewrite H2, H1, app_assoc.
Qed.

Lemma grows_after_loop response_json random_random format_2f return_json
    retries response :
  grows (after_loop response_json random_random format_2f return_json
           retries response).
Proof.
  unfold after_loop. apply grows_bind.
  - destruct (retries =? 6); [apply grows_raise | apply grows_ret].
  - intros _. destruct return_json; [|apply grows_ret].
    destruct response as [r|]; [|apply grows_raise].
    apply grows_bind.
    + destruct (status_code r =? 429); [|apply grows_ret].
      apply grows_bind.
      * unfold load_global.
        destruct (existsb _ _); [apply grows_ret | apply grows_raise].
      * intros v. apply grows_bind.
        -- destruct v; try apply grows_raise; apply grows_ret.
        -- intros q. apply grows_bind; [apply grows_emit|].
           intros _. apply grows_emit.
    + intros _. destruct (status_code r =? 404); [apply grows_ret|].
      apply grows_try_except.
      * intros w. exists [EvJson r]. reflexivity.
      * intros e. apply grows_ret.
Qed.

(** ** The executor *)

Lemma effective_headers_eq (headers : option headers_t) :
  (if py_not_headers headers then define_headers
   else match headers with Some h => h | None => [] end)
  = effective_headers headers.
Proof. destruct headers as [[|]|]; reflexivity. Qed.

Section Executor.

Variable net : nat -> get_outcome.
Variable response_json : Response -> result pyval.
Variable random_random : Q.
Variable format_2f : Q -> string.
Variables (fresh_object : FreshPy) (uri : string)
          (headers : option headers_t) (verify_ssl : bool).

Local Abbreviation run return_json :=
  (get_request_with_retries net response_json random_random format_2f
     fresh_object uri headers return_json verify_ssl world0).
Local Abbreviation finish :=
  (after_loop response_json random_random format_2f).
Local Abbreviation the_get :=
  (EvGet (base_url fresh_object ++ uri) (effective_headers headers)
         (define_auth (api_key fresh_object)) verify_ssl).
Local Abbreviation failures :=
  (failure_events (base_url fresh_object ++ uri) (effective_headers headers)
                  (define_auth (api_key fresh_object)) verify_ssl 0).

Lemma run_success (return_json : bool) (es : list pyexc) (r : Response) :
  fails_from net 0 es ->
  forallb is_connection_class es = true ->
  (length es <= 5)%nat ->
  net (length es) = GetOk r ->
  run return_json =
  finish return_json (Z.of_nat (length es)) (Some r)
         (mkWorld (S (length es)) (failures es ++ [the_get])).
Proof.
  intros Hnet Hconn Hlen Hok. unfold get_request_with_retries.
  rewrite effective_headers_eq.
  now rewrite (retry_loop_success _ _ _ _ _ es r).
Qed.

Lemma run_fatal (return_json : bool) (es : list pyexc) (e : pyexc) :
  fails_from net 0 es ->
  forallb is_connection_class es = true ->
  (length es <= 5)%nat ->
  net (length es) = GetExc e ->
  is_connection_class e = false ->
  run return_json =
  (Raise (mkExc "RuntimeError" (exc_name e ++ ": " ++ exc_arg e)),
   mkWorld (S (length es)) (failures es ++ [the_get])).
Proof.
  intros Hnet Hconn Hlen Hexc He. unfold get_request_with_retries.
  rewrite effective_headers_eq.
  now rewrite (retry_loop_fatal _ _ _ _ _ es e).
Qed.

Lemma run_aborted (return_json : bool) (es : list pyexc) (e : pyexc) :
  fails_from net 0 es ->
  forallb is_connection_class es = true ->
  (length es <= 5)%nat ->
  net (length es) = GetAbort e ->
  run return_json =
  (Abort e, mkWorld (S (length es)) (failures es ++ [the_get])).
Proof.
  intros Hnet Hconn Hlen Hexc. unfold get_request_with_retries.
  rewrite effective_headers_eq.
  now rewrite (retry_loop_aborted _ _ _ _ _ es e).
Qed.

Lemma run_exhausted (return_json : bool) (es : list pyexc) :
  fails_from net 0 es ->
  forallb is_connection_class es = true ->
  length es = 6%nat ->
  run return_json =
  (Raise (mkExc "APIConnectionError" _failure_msg),
   mkWorld 6 (failures es)).
Proof.
  intros Hnet Hconn Hlen. unfold get_request_with_retries.
  rewrite effective_headers_eq.
  now rewrite (retry_loop_exhausted _ _ _ _ _ es).
Qed.

Lemma not_exhausted (k : nat) : (k <= 5)%nat -> (Z.of_nat k =? 6) = false.
Proof. intros H. apply Z.eqb_neq. lia. Qed.

(** After at most five retried failures, a response is turned into a
    returned value (the raw response, an envelope, or the decoded body)
    unless it is a 429 to be decoded (or the decoder is cut short by an
    exception outside [Exception]); the error stream then holds the reports
    of the failures and nothing else. *)
Lemma run_returns_unless_rate_limited (return_json : bool)
    (es : list pyexc) (r : Response) :
  fails_from net 0 es ->
  forallb is_connection_class es = true ->
  (length es <= 5)%nat ->
  net (length es) = GetOk r ->
  return_json = false \/ status_code r <> 429 ->
  (forall e, response_json r <> Abort e) ->
  exists v w,
    run return_json = (Return v, w)
    /\ issued w = S (length es)
    /\ stderr_lines (trace w) = reports 0 es.
Proof.
  intros Hnet Hconn Hlen Hok Hcase Hdec.
  rewrite (run_success return_json es r) by assumption.
  assert (Hlines : forall t, stderr_lines t = [] ->
            stderr_lines ((failures es ++ [the_get]) ++ t) = reports 0 es).
  { intros t Ht.
    rewrite !stderr_lines_app, stderr_failure_events, Ht. simpl.
    now rewrite !app_nil_r. }
  unfold after_loop, bind, ret, try_except, json_of.
  rewrite not_exhausted by exact Hlen.
  destruct return_json.
  - destruct Hcase as [Hf|H429]; [discriminate|].
    apply Z.eqb_neq in H429. rewrite H429.
    destruct (status_code r =? 404).
    + eexists _, _. split; [reflexivity|]. split; [reflexivity|].
      cbn [trace]. rewrite <- (app_nil_r (_ ++ [_])). now apply Hlines.
    + destruct (response_json r) as [v|exc|ab] eqn:Ej;
        [| |now destruct (Hdec ab)]; cbn [issued trace];
        (eexists _, _; split; [reflexivity|]; split; [reflexivity|]);
        cbn [trace]; now apply Hlines.
  - eexists _, _. split; [reflexivity|]. split; [reflexivity|].
    cbn [trace]. rewrite <- (app_nil_r (_ ++ [_])). now apply Hlines.
Qed.

(** C2: when all six attempts (the first one and five retries) fail with
    connection-class exceptions, the call raises [APIConnectionError]
    built with the remediation message, after exactly six GETs and six
    reports; no seventh attempt is made, whatever the network would
    answer. *)
Theorem six_connection_failures_raise (return_json : bool)
    (es : list pyexc) :
  fails_from net 0 es ->
  forallb is_connection_class es = true ->
  length es = 6%nat ->
  run return_json =
    (Raise (mkExc "APIConnectionError" _failure_msg),
     mkWorld 6 (failures es))
  /\ count_events is_get (failures es) = 6%nat
  /\ length (stderr_lines (failures es)) = 6%nat
  /\ PyStr.contains "run the script again or contact" _failure_msg = true.
Proof.
  intros Hnet Hconn Hlen. repeat split.
  - now apply run_exhausted.
  - now rewrite count_failure_events_get.
  - now rewrite stderr_failure_events, reports_length.
Qed.

(** C3: an exception that is not connection-class, raised by a GET after
    any number (also zero) of retried failures, makes the call raise
    [RuntimeError] at once: the failing GET is the last event, nothing is
    reported for it, and [_report_failed_attempt] raises before the
    counter is incremented, leaving the world as it was. *)
Theorem non_connection_exception_is_fatal (return_json : bool)
    (es : list pyexc) (e : pyexc) :
  fails_from net 0 es ->
  forallb is_connection_class es = true ->
  (length es <= 5)%nat ->
  net (length es) = GetExc e ->
  is_connection_class e = false ->
  run return_json =
    (Raise (mkExc "RuntimeError" (exc_name e ++ ": " ++ exc_arg e)),
     mkWorld (S (length es)) (failures es ++ [the_get]))
  /\ stderr_lines (failures es ++ [the_get]) = reports 0 es
  /\ (forall retries w,
        _report_failed_attempt e "get" retries w =
        (Raise (mkExc "RuntimeError" (exc_name e ++ ": " ++ exc_arg e)),
         w)).
Proof.
  intros Hnet Hconn Hlen Hexc He. repeat split.
  - now apply run_fatal.
  - rewrite stderr_lines_app, stderr_failure_events. apply app_nil_r.
  - intros retries w. now apply report_fatal.
Qed.

(** C4: a response with status 404, decoding requested: the call returns
    the not-found envelope and [response.json()] is never called,
    whatever the body and the decoder. *)
Theorem not_found_envelope (es : list pyexc) (r : Response) :
  fails_from net 0 es ->
  forallb is_connection_class es = true ->
  (length es <= 5)%nat ->
  net (length es) = GetOk r ->
  status_code r = 404 ->
  run true =
    (Return (VDict [("status", VStr "error");
                    ("status_code", VInt 404);
                    ("error_message", VStr "Data not found")]),
     mkWorld (S (length es)) (failures es ++ [the_get]))
  /\ count_events is_json (failures es ++ [the_get]) = 0%nat.
Proof.
  intros Hnet Hconn Hlen Hok Hst. split.
  - rewrite (run_success true es r) by assumption.
    unfold after_loop, bind, ret.
    now rewrite not_exhausted, Hst by exact Hlen.
  - unfold count_events. rewrite filter_app, length_app.
    change (length (filter is_json (failures es)))
      with (count_events is_json (failures es)).
    now rewrite count_failure_events_other.
Qed.

(** C5: a response whose status is neither 404 nor 429 and whose body
    [response.json()] cannot decode, decoding requested: the call does
    not raise, it returns the exception envelope holding the decoder's
    exception. *)
Theorem undecodable_body_envelope (es : list pyexc) (r : Response)
    (exc : pyexc) :
  fails_from net 0 es ->
  forallb is_connection_class es = true ->
  (length es <= 5)%nat ->
  net (length es) = GetOk r ->
  status_code r <> 404 ->
  status_code r <> 429 ->
  response_json r = Raise exc ->
  run true =
    (Return (VDict [("status", VStr "exception");
                    ("status_code", VNone);
                    ("error_message", VExc exc)]),
     mkWorld (S (length es)) (failures es ++ [the_get; EvJson r])).
Proof.
  intros Hnet Hconn Hlen Hok H404 H429 Hjson.
  rewrite (run_success true es r) by assumption.
  unfold after_loop, bind, ret, try_except, json_of.
  rewrite not_exhausted by exact Hlen.
  apply Z.eqb_neq in H404, H429. rewrite H404, H429, Hjson.
  cbn [issued trace]. now rewrite <- app_assoc.
Qed.

(** C6: decoding not requested: the call returns the transport response
    itself, whatever its status and body, and the trace ends with the
    GET that produced it: no pause, no envelope, no decoding. *)
Theorem raw_response_returned (es : list pyexc) (r : Response) :
  fails_from net 0 es ->
  forallb is_connection_class es = true ->
  (length es <= 5)%nat ->
  net (length es) = GetOk r ->
  run false =
    (Return (VResponse r),
     mkWorld (S (length es)) (failures es ++ [the_get]))
  /\ count_events is_sleep (failures es ++ [the_get]) = 0%nat
  /\ count_events is_json (failures es ++ [the_get]) = 0%nat.
Proof.
  intros Hnet Hconn Hlen Hok. split; [|split].
  - rewrite (run_success false es r) by assumption.
    unfold after_loop, bind, ret.
    now rewrite not_exhausted by exact Hlen.
  - unfold count_events. rewrite filter_app, length_app.
    change (length (filter is_sleep (failures es)))
      with (count_events is_sleep (failures es)).
    now rewrite count_failure_events_other.
  - unfold count_events. rewrite filter_app, length_app.
    change (length (filter is_json (failures es)))
      with (count_events is_json (failures es)).
    now rewrite count_failure_events_other.
Qed.

(** C8: a response with status 429, decoding requested: line 88 reads the
    name [i], which nothing binds, so the call raises [NameError] before
    any delay is computed; it neither pauses nor decodes the body. *)
Theorem rate_limited_raises_NameError (es : list pyexc) (r : Response) :
  fails_from net 0 es ->
  forallb is_connection_class es = true ->
  (length es <= 5)%nat ->
  net (length es) = GetOk r ->
  status_code r = 429 ->
  run true =
    (Raise (mkExc "NameError" "name 'i' is not defined"),
     mkWorld (S (length es)) (failures es ++ [the_get]))
  /\ count_events is_sleep (failures es ++ [the_get]) = 0%nat
  /\ count_events is_json (failures es ++ [the_get]) = 0%nat.
Proof.
  intros Hnet Hconn Hlen Hok Hst. split; [|split].
  - rewrite (run_success true es r) by assumption.
    unfold after_loop, bind, ret.
    now rewrite not_exhausted, Hst by exact Hlen.
  - unfold count_events. rewrite filter_app, length_app.
    change (length (filter is_sleep (failures es)))
      with (count_events is_sleep (failures es)).
    now rewrite count_failure_events_other.
  - unfold count_events. rewrite filter_app, length_app.
    change (length (filter is_json (failures es)))
      with (count_events is_json (failures es)).
    now rewrite count_failure_events_other.
Qed.

(** Whatever follows them, the reports of a run that starts with the
    connection-class failures [es] open its trace. *)
Lemma run_trace_prefix (return_json : bool) (es : list pyexc) :
  fails_from net 0 es ->
  forallb is_connection_class es = true ->
  (length es <= 6)%nat ->
  exists t, trace (snd (run return_json)) = (failures es ++ t)%list.
Proof.
  intros Hnet Hconn Hlen. unfold get_request_with_retries.
  rewrite effective_headers_eq.
  rewrite (retry_loop_failures _ _ _ _ _ es) by (try assumption; simpl; lia).
  cbn [issued trace world0 app].
  match goal with
  | |- context [retry_loop ?n ?u ?h ?a ?v ?k ?w] =>
      destruct (grows_retry_loop n u h a v _ k eq_refl w) as [t1 H1];
      destruct (retry_loop n u h a v k w) as [[[retries response]|e|e] w']
  end; cbn [trace snd] in H1.
  - destruct (grows_after_loop response_json random_random format_2f
                return_json retries response w') as [t2 H2].
    exists (t1 ++ t2)%list. now rewrite H2, H1, app_assoc.
  - now exists t1.
  - now exists t1.
Qed.

Lemma report_shape (e : pyexc) (rt : string) (n : Z) :
  failed_attempt_report e rt n =
  ("The " ++ PyStr.upper rt
     ++ " request has failed with the following exception: "
     ++ exc_name e ++ ": " ++ exc_arg e ++ " ")
  ++ ("(Attempt " ++ PyStr.of_int n ++ " of 5)")
  ++ (newline ++ exc_name e ++ ": " ++ exc_arg e ++ newline).
Proof.
  unfold failed_attempt_report. now rewrite !app_assoc_str.
Qed.

(** C10: in a run whose first attempts fail with the connection-class
    exceptions [es], the [k]-th failure ([k] counted from 1) is reported
    by the [k]-th line on the error stream, and that line announces
    [(Attempt k-1 of 5)]: the first failure says 0 of 5, the sixth
    5 of 5. *)
Theorem reports_numbered_from_zero (return_json : bool)
    (es : list pyexc) (k : nat) (e : pyexc) :
  fails_from net 0 es ->
  forallb is_connection_class es = true ->
  (length es <= 6)%nat ->
  (1 <= k)%nat ->
  nth_error es (k - 1) = Some e ->
  nth_error (stderr_lines (trace (snd (run return_json)))) (k - 1) =
    Some (failed_attempt_report e "get" (Z.of_nat k - 1))
  /\ (exists pre post,
        failed_attempt_report e "get" (Z.of_nat k - 1) =
        pre ++ ("(Attempt " ++ PyStr.of_int (Z.of_nat k - 1) ++ " of 5)")
            ++ post)
  /\ PyStr.of_int (1 - 1) = "0"
  /\ PyStr.of_int (6 - 1) = "5".
Proof.
  intros Hnet Hconn Hlen Hk He. repeat split.
  - destruct (run_trace_prefix return_json es Hnet Hconn Hlen) as [t Ht].
    rewrite Ht, stderr_lines_app, stderr_failure_events.
    rewrite nth_error_app1
      by (rewrite reports_length; apply nth_error_Some; congruence).
    rewrite (reports_nth es 0 (k - 1) e He). do 2 f_equal. lia.
  - eexists _, _. apply report_shape.
Qed.

End Executor.

(** C1: two refused connections followed by a response with status 429,
    decoding requested.  The loop reports the two failures and stops at the
    response, but the call then raises [NameError] (the unbound [i] of
    line 88) instead of returning a result for that response. *)
Theorem retried_then_rate_limited_raises :
  sample_run (net_after 2 (GetOk (mkResponse 429 "[]"))) true =
    (Raise (mkExc "NameError" "name 'i' is not defined"),
     mkWorld 3 (sample_failures [connection_error; connection_error]
                  ++ [sample_get]))
  /\ stderr_lines (sample_failures [connection_error; connection_error]
                     ++ [sample_get])
     = [failed_attempt_report connection_error "get" 0;
        failed_attempt_report connection_error "get" 1].
Proof. split; vm_compute; reflexivity. Qed.

(** ** Classification of exceptions *)

(** C9: [_report_failed_attempt] lets the retry go on, after writing its
    report, exactly when the lower-cased name of the exception's type
    holds ["connect"]; for every other exception it raises a
    [RuntimeError] whose message is the type name, a colon and the
    message, and writes nothing.  [ReadTimeout] is such an exception. *)
Theorem classification_by_type_name (e : pyexc) (rt : string) (n : Z)
    (w : world) :
  ((exists pre post, PyStr.lower (exc_name e) = pre ++ "connect" ++ post)
   <-> _report_failed_attempt e rt n w =
       (Return tt,
        mkWorld (issued w)
                (trace w ++ [EvStderr (failed_attempt_report e rt n)])))
  /\ ((~ exists pre post, PyStr.lower (exc_name e) = pre ++ "connect" ++ post)
      <-> _report_failed_attempt e rt n w =
          (Raise (mkExc "RuntimeError" (exc_name e ++ ": " ++ exc_arg e)),
           w))
  /\ _report_failed_attempt read_timeout "get" 0 world0 =
     (Raise (mkExc "RuntimeError" "ReadTimeout: Read timed out."), world0).
Proof.
  pose proof (contains_iff "connect" (PyStr.lower (exc_name e))) as Hc.
  fold (is_connection_class e) in Hc.
  destruct (is_connection_class e) eqn:He.
  - rewrite (report_connection e rt n w He).
    split; [|split]; [| |reflexivity].
    + split; [reflexivity | intros _; now apply Hc].
    + split; [intros Hn; exfalso; apply Hn; now apply Hc | discriminate].
  - rewrite (report_fatal e rt n w He).
    split; [|split]; [| |reflexivity].
    + split; [intros H; apply Hc in H; discriminate | discriminate].
    + split; [reflexivity | intros _ H; apply Hc in H; discriminate].
Qed.

(** ** The session constructor *)

(** C7: the constructor means to give every address a scheme, but its test
    is [startswith("http")]: a host name that starts with the letters
    [http] carries no scheme and none is prefixed, so the base address is
    left without one. *)
Lemma http_named_host_gets_no_scheme :
  spec_has_scheme "httpdesk.freshservice.com" = false
  /\ FreshPy_init "2.0.0" (Some "httpdesk.freshservice.com") (Some "k1") =
     Return (mkFreshPy "2.0.0" "httpdesk.freshservice.com"
                       "httpdesk.freshservice.com/api/v2/" "k1")
  /\ ~ (forall v d k obj,
          FreshPy_init v (Some d) (Some k) = Return obj ->
          spec_has_scheme d = false ->
          PyStr.startswith (base_url obj) "https://" = true).
Proof.
  split; [reflexivity|]. split; [reflexivity|].
  intros H.
  specialize (H "2.0.0" "httpdesk.freshservice.com" "k1" _ eq_refl eq_refl).
  discriminate H.
Qed.

(** What the constructor computes: it raises [MissingRequiredDataError]
    when the domain or the key is [None] or empty; otherwise ["https://"]
    is prefixed exactly when the address does not start with the
    characters [http], then one trailing ["/"] is removed when there is
    one, and the base address is the result followed by ["/api/v2/"]. *)
Lemma FreshPy_init_normalizes (v : string) (d k : option string) :
  (d = None \/ d = Some EmptyString \/ k = None \/ k = Some EmptyString ->
   FreshPy_init v d k = Raise (mkExc "MissingRequiredDataError" "init"))
  /\ (forall ds ks,
        d = Some ds -> k = Some ks -> ds <> EmptyString ->
        ks <> EmptyString ->
        exists d1 d2,
          FreshPy_init v d k =
            Return (mkFreshPy v d2 (d2 ++ "/api/v2/") ks)
          /\ (PyStr.startswith ds "http" = true -> d1 = ds)
          /\ (PyStr.startswith ds "http" = false -> d1 = "https://" ++ ds)
          /\ (forall t, d1 = t ++ "/" -> d2 = t)
          /\ ((forall t, d1 <> t ++ "/") -> d2 = d1))
  /\ FreshPy_init v (Some "example.freshservice.com") (Some "k1") =
     Return (mkFreshPy v "https://example.freshservice.com"
                       "https://example.freshservice.com/api/v2/" "k1")
  /\ FreshPy_init v (Some "https://example.freshservice.com//") (Some "k1") =
     Return (mkFreshPy v "https://example.freshservice.com/"
                       "https://example.freshservice.com//api/v2/" "k1").
Proof.
  split; [|split; [|split; reflexivity]].
  - intros [-> | [-> | [-> | ->]]]; unfold FreshPy_init;
      try reflexivity; simpl; now rewrite orb_true_r.
  - intros ds ks -> -> Hd Hk.
    destruct ds as [|a ds]; [contradiction|].
    destruct ks as [|b ks]; [contradiction|].
    unfold FreshPy_init.
    cbn [py_not PyStr.truthy negb orb andb].
    set (d1 := if negb (PyStr.startswith (String a ds) "http")
               then "https://" ++ String a ds else String a ds).
    exists d1.
    exists (if PyStr.endswith_char d1 "/" then PyStr.drop_last d1 else d1).
    split; [reflexivity|].
    split; [intros H; subst d1; now rewrite H|].
    split; [intros H; subst d1; now rewrite H|].
    destruct (PyStr.endswith_char d1 "/") eqn:E; split.
    + intros t ->. apply drop_last_app.
    + intros H. apply endswith_char_inv in E as [t Ht].
      now destruct (H t).
    + intros t Ht. rewrite Ht, endswith_char_app in E. discriminate.
    + reflexivity.
Qed.

(** ** The properties on sample runs *)

Lemma six_connection_failures_raise_witness :
  sample_run (fun _ => GetExc connection_error) true =
    (Raise (mkExc "APIConnectionError" _failure_msg),
     mkWorld 6 (sample_failures (repeat connection_error 6)))
  /\ count_events is_get (sample_failures (repeat connection_error 6)) = 6%nat
  /\ length (stderr_lines (sample_failures (repeat connection_error 6)))
     = 6%nat
  /\ PyStr.contains "run the script again or contact" _failure_msg = true.
Proof.
  apply (six_connection_failures_raise
           (fun _ => GetExc connection_error) sample_json (1 # 2)%Q
           sample_format sample_session sample_uri None true true
           (repeat connection_error 6)).
  - simpl. repeat split.
  - reflexivity.
  - reflexivity.
Defined.

Lemma non_connection_exception_is_fatal_witness :
  sample_run (fun _ => GetExc read_timeout) true =
    (Raise (mkExc "RuntimeError" "ReadTimeout: Read timed out."),
     mkWorld 1 [sample_get])
  /\ stderr_lines [sample_get] = []
  /\ (forall retries w,
        _report_failed_attempt read_timeout "get" retries w =
        (Raise (mkExc "RuntimeError" "ReadTimeout: Read timed out."), w)).
Proof.
  apply (non_connection_exception_is_fatal
           (fun _ => GetExc read_timeout) sample_json (1 # 2)%Q
           sample_format sample_session sample_uri None true true
           [] read_timeout).
  - exact I.
  - reflexivity.
  - simpl. lia.
  - reflexivity.
  - reflexivity.
Defined.

Lemma not_found_envelope_witness :
  sample_run (net_after 2 (GetOk (mkResponse 404 "<html>gone</html>"))) true =
    (Return (VDict [("status", VStr "error");
                    ("status_code", VInt 404);
                    ("error_message", VStr "Data not found")]),
     mkWorld 3 (sample_failures [connection_error; connection_error]
                  ++ [sample_get]))
  /\ count_events is_json
       (sample_failures [connection_error; connection_error] ++ [sample_get])
     = 0%nat.
Proof.
  apply (not_found_envelope
           (net_after 2 (GetOk (mkResponse 404 "<html>gone</html>")))
           sample_json (1 # 2)%Q sample_format sample_session sample_uri
           None true [connection_error; connection_error]
           (mkResponse 404 "<html>gone</html>")).
  - simpl. repeat split.
  - reflexivity.
  - simpl. lia.
  - reflexivity.
  - reflexivity.
Defined.

Lemma undecodable_body_envelope_witness :
  sample_run (net_after 1 (GetOk (mkResponse 200 "<html>hello</html>"))) true =
    (Return (VDict [("status", VStr "exception");
                    ("status_code", VNone);
                    ("error_message",
                     VExc (mkExc "JSONDecodeError"
                             "Expecting value: line 1 column 1 (char 0)"))]),
     mkWorld 2 (sample_failures [connection_error]
                  ++ [sample_get;
                      EvJson (mkResponse 200 "<html>hello</html>")])).
Proof.
  apply (undecodable_body_envelope
           (net_after 1 (GetOk (mkResponse 200 "<html>hello</html>")))
           sample_json (1 # 2)%Q sample_format sample_session sample_uri
           None true [connection_error]
           (mkResponse 200 "<html>hello</html>")
           (mkExc "JSONDecodeError"
              "Expecting value: line 1 column 1 (char 0)")).
  - simpl. repeat split.
  - reflexivity.
  - simpl. lia.
  - reflexivity.
  - simpl. lia.
  - simpl. lia.
  - reflexivity.
Defined.

Lemma raw_response_returned_witness :
  sample_run (net_after 0 (GetOk (mkResponse 429 "slow down"))) false =
    (Return (VResponse (mkResponse 429 "slow down")),
     mkWorld 1 (sample_failures [] ++ [sample_get]))
  /\ count_events is_sleep (sample_failures [] ++ [sample_get]) = 0%nat
  /\ count_events is_json (sample_failures [] ++ [sample_get]) = 0%nat.
Proof.
  apply (raw_response_returned
           (net_after 0 (GetOk (mkResponse 429 "slow down")))
           sample_json (1 # 2)%Q sample_format sample_session sample_uri
           None true [] (mkResponse 429 "slow down")).
  - exact I.
  - reflexivity.
  - simpl. lia.
  - reflexivity.
Defined.

Lemma rate_limited_raises_NameError_witness :
  sample_run (net_after 0 (GetOk (mkResponse 429 "[]"))) true =
    (Raise (mkExc "NameError" "name 'i' is not defined"),
     mkWorld 1 (sample_failures [] ++ [sample_get]))
  /\ count_events is_sleep (sample_failures [] ++ [sample_get]) = 0%nat
  /\ count_events is_json (sample_failures [] ++ [sample_get]) = 0%nat.
Proof.
  apply (rate_limited_raises_NameError
           (net_after 0 (GetOk (mkResponse 429 "[]")))
           sample_json (1 # 2)%Q sample_format sample_session sample_uri
           None true [] (mkResponse 429 "[]")).
  - exact I.
  - reflexivity.
  - simpl. lia.
  - reflexivity.
  - reflexivity.
Defined.

Lemma reports_numbered_from_zero_witness :
  nth_error
    (stderr_lines (trace (snd (sample_run (fun _ => GetExc connection_error)
                                 true))))
    (6 - 1)
  = Some (failed_attempt_report connection_error "get" (Z.of_nat 6 - 1))
  /\ (exists pre post,
        failed_attempt_report connection_error "get" (Z.of_nat 6 - 1) =
        pre ++ ("(Attempt " ++ PyStr.of_int (Z.of_nat 6 - 1) ++ " of 5)")
            ++ post)
  /\ PyStr.of_int (1 - 1) = "0"
  /\ PyStr.of_int (6 - 1) = "5".
Proof.
  apply (reports_numbered_from_zero
           (fun _ => GetExc connection_error) sample_json (1 # 2)%Q
           sample_format sample_session sample_uri None true true
           (repeat connection_error 6) 6 connection_error).
  - simpl. repeat split.
  - reflexivity.
  - simpl. lia.
  - lia.
  - reflexivity.
Defined.

(** * Further properties *)

(** ** The failures a network starts with *)

Lemma conn_prefix_fails (net : nat -> get_outcome) (fuel : nat) :
  forall j, fails_from net j (conn_prefix net j fuel).
Proof.
  induction fuel as [|fuel IH]; intros j; simpl; [exact I|].
  destruct (net j) as [r|e|e] eqn:E; [exact I| |exact I].
  destruct (is_connection_class e); simpl; [|exact I].
  split; [exact E | apply IH].
Qed.

Lemma conn_prefix_conn (net : nat -> get_outcome) (fuel : nat) :
  forall j, forallb is_connection_class (conn_prefix net j fuel) = true.
Proof.
  induction fuel as [|fuel IH]; intros j; simpl; [reflexivity|].
  destruct (net j) as [r|e|e]; [reflexivity| |reflexivity].
  destruct (is_connection_class e) eqn:C; simpl; [|reflexivity].
  now rewrite C, IH.
Qed.

Lemma conn_prefix_length (net : nat -> get_outcome) (fuel : nat) :
  forall j, (length (conn_prefix net j fuel) <= fuel)%nat.
Proof.
  induction fuel as [|fuel IH]; intros j; simpl; [lia|].
  destruct (net j) as [r|e|e]; simpl; [lia| |lia].
  destruct (is_connection_class e); simpl; [|lia].
  specialize (IH (S j)). lia.
Qed.

(** A prefix shorter than allowed stops at a response, at an exception
    that is not connection-class, or at one outside [Exception]. *)
Lemma conn_prefix_stop (net : nat -> get_outcome) (fuel : nat) :
  forall j,
    (length (conn_prefix net j fuel) < fuel)%nat ->
    (exists r, net (j + length (conn_prefix net j fuel))%nat = GetOk r)
    \/ (exists e, net (j + length (conn_prefix net j fuel))%nat = GetExc e
                  /\ is_connection_class e = false)
    \/ (exists e, net (j + length (conn_prefix net j fuel))%nat = GetAbort e).
Proof.
  induction fuel as [|fuel IH]; intros j H; simpl in *; [lia|].
  destruct (net j) as [r|e|e] eqn:E.
  - left. exists r. simpl. now rewrite Nat.add_0_r.
  - destruct (is_connection_class e) eqn:C; simpl in *.
    + replace (j + S (length (conn_prefix net (S j) fuel)))%nat
        with (S j + length (conn_prefix net (S j) fuel))%nat by lia.
      apply IH. lia.
    + right. left. exists e. now rewrite Nat.add_0_r.
  - right. right. exists e. simpl. now rewrite Nat.add_0_r.
Qed.

Lemma count_events_app (p : event -> bool) (t1 t2 : list event) :
  count_events p (t1 ++ t2) = (count_events p t1 + count_events p t2)%nat.
Proof. unfold count_events. now rewrite filter_app, length_app. Qed.

Lemma failure_events_gets_uniform url headers auth verify (es : list pyexc) :
  forall retries,
    Forall (fun ev => is_get ev = true -> ev = EvGet url headers auth verify)
           (failure_events url headers auth verify retries es).
Proof.
  induction es as [|e es IH]; intros retries; simpl; constructor.
  - reflexivity.
  - constructor; [discriminate | apply IH].
Qed.

(** ** Every run of the executor *)

Section AnyNetwork.

Variable net : nat -> get_outcome.
Variable response_json : Response -> result pyval.
Variable random_random : Q.
Variable format_2f : Q -> string.
Variables (fresh_object : FreshPy) (uri : string)
          (headers : option headers_t) (verify_ssl : bool).

Local Abbreviation run return_json :=
  (get_request_with_retries net response_json random_random format_2f
     fresh_object uri headers return_json verify_ssl world0).
Local Abbreviation the_get :=
  (EvGet (base_url fresh_object ++ uri) (effective_headers headers)
         (define_auth (api_key fresh_object)) verify_ssl).
Local Abbreviation failures :=
  (failure_events (base_url fresh_object ++ uri) (effective_headers headers)
                  (define_auth (api_key fresh_object)) verify_ssl 0).
Local Abbreviation es := (conn_prefix net 0 6).
Local Abbreviation exhausted :=
  (@Raise pyval (mkExc "APIConnectionError" _failure_msg)).
Local Abbreviation unbound_i := (mkExc "NameError" "name 'i' is not defined").

(** What the statements after the loop do with a response. *)
Lemma after_loop_shape (return_json : bool) (k : nat) (r : Response)
    (w : world) :
  (k <= 5)%nat ->
  exists res tail,
    after_loop response_json random_random format_2f return_json
               (Z.of_nat k) (Some r) w
    = (res, mkWorld (issued w) (trace w ++ tail))
    /\ (tail = [] \/ tail = [EvJson r])
    /\ (forall e, res = Raise e ->
          return_json = true /\ status_code r = 429 /\ e = unbound_i)
    /\ (forall e, res = Abort e ->
          return_json = true /\ response_json r = Abort e).
Proof.
  intros Hk. unfold after_loop, bind, ret, try_except, json_of.
  rewrite not_exhausted by exact Hk.
  assert (Hw : w = mkWorld (issued w) (trace w ++ []))
    by (rewrite app_nil_r; now destruct w).
  destruct return_json.
  - destruct (status_code r =? 429) eqn:E429.
    + exists (Raise unbound_i), []. cbn. split; [now rewrite <- Hw|].
      split; [now left|]. split; [|discriminate]. intros e [= <-].
      apply Z.eqb_eq in E429. now repeat split.
    + destruct (status_code r =? 404).
      * eexists _, []. split; [now rewrite <- Hw|].
        split; [now left|]. split; discriminate.
      * destruct (response_json r) as [v|exc|ab]; cbn [issued trace];
          (eexists _, [EvJson r]; split; [reflexivity|];
           split; [now right|]; split; try discriminate).
        intros e [= <-]. now split.
  - eexists _, []. split; [now rewrite <- Hw|].
    split; [now left|]. split; discriminate.
Qed.

(** The shape of every run: the reported failures the network starts
    with, then nothing more (six failures), or one last GET and at most one
    decoding. *)
Lemma run_shape (return_json : bool) :
  exists res n tail,
    run return_json = (res, mkWorld n (failures es ++ tail))
    /\ ((length es = 6%nat /\ n = 6%nat /\ tail = [] /\ res = exhausted)
        \/ ((length es <= 5)%nat /\ n = S (length es)
            /\ (tail = [the_get] \/ exists r, tail = [the_get; EvJson r])
            /\ (forall e, res = Raise e ->
                  (exists x, is_connection_class x = false
                             /\ e = mkExc "RuntimeError"
                                      (exc_name x ++ ": " ++ exc_arg x))
                  \/ (return_json = true /\ e = unbound_i))
            /\ (forall e, res = Abort e ->
                  net (length es) = GetAbort e
                  \/ (return_json = true
                      /\ exists r, net (length es) = GetOk r
                                   /\ response_json r = Abort e)))).
Proof.
  pose proof (conn_prefix_fails net 6 0) as Hf.
  pose proof (conn_prefix_conn net 6 0) as Hc.
  pose proof (conn_prefix_length net 6 0) as Hl.
  destruct (Nat.eq_dec (length es) 6) as [H6|H6].
  - exists exhausted, 6%nat, []. split.
    + rewrite app_nil_r. now apply run_exhausted.
    + left. now repeat split.
  - assert (Hlt : (length es < 6)%nat) by lia.
    assert (H5 : (length es <= 5)%nat) by lia.
    destruct (conn_prefix_stop net 6 0 Hlt)
      as [[r Hr]|[[x [Hx Hxc]]|[x Hx]]]; simpl Nat.add in *.
    + rewrite (run_success net response_json random_random format_2f
                 fresh_object uri headers verify_ssl return_json es r)
        by assumption.
      destruct (after_loop_shape return_json (length es) r
                  (mkWorld (S (length es)) (failures es ++ [the_get])) H5)
        as (res & tail & -> & Htail & Hres & Hab).
      cbn [issued trace]. exists res, (S (length es)), ([the_get] ++ tail)%list.
      split; [now rewrite app_assoc|].
      right. split; [exact H5|]. split; [reflexivity|]. split; [|split].
      * destruct Htail as [->| ->]; [now left | right; now exists r].
      * intros e He. right. destruct (Hres e He) as (? & _ & ?). now split.
      * intros e He. right. destruct (Hab e He) as [? ?].
        split; [assumption|]. now exists r.
    + exists (Raise (mkExc "RuntimeError" (exc_name x ++ ": " ++ exc_arg x))),
        (S (length es)), [the_get].
      split; [now apply run_fatal|].
      right. split; [exact H5|]. split; [reflexivity|].
      split; [now left|]. split; [|discriminate].
      intros e [= <-]. left. now exists x.
    + exists (Abort x), (S (length es)), [the_get].
      split; [now apply run_aborted|].
      right. split; [exact H5|]. split; [reflexivity|].
      split; [now left|]. split; [discriminate|].
      intros e [= <-]. now left.
Qed.

(** X1: a response whose status is neither 404 nor 429 and whose body
    decodes, decoding requested: the call returns the decoded value itself,
    and [response.json()] is called once, after the last GET. *)
Theorem decoded_body_returned (xs : list pyexc) (r : Response) (v : pyval) :
  fails_from net 0 xs ->
  forallb is_connection_class xs = true ->
  (length xs <= 5)%nat ->
  net (length xs) = GetOk r ->
  status_code r <> 404 ->
  status_code r <> 429 ->
  response_json r = Return v ->
  run true =
    (Return v, mkWorld (S (length xs)) (failures xs ++ [the_get; EvJson r])).
Proof.
  intros Hnet Hconn Hlen Hok H404 H429 Hjson.
  rewrite (run_success net response_json random_random format_2f
             fresh_object uri headers verify_ssl true xs r) by assumption.
  unfold after_loop, bind, ret, try_except, json_of.
  rewrite not_exhausted by exact Hlen.
  apply Z.eqb_neq in H404, H429. rewrite H404, H429, Hjson.
  cbn [issued trace]. now rewrite <- app_assoc.
Qed.

(** X2: on every network and for all arguments, a call issues at least one
    GET and at most six, and the trace holds exactly those GETs. *)
Theorem attempts_between_one_and_six (return_json : bool) :
  (1 <= issued (snd (run return_json)) <= 6)%nat
  /\ count_events is_get (trace (snd (run return_json)))
     = issued (snd (run return_json)).
Proof.
  destruct (run_shape return_json)
    as (res & n & tail & -> & [(H6 & -> & -> & _)|(H5 & -> & Htail & _)]);
    cbn [snd issued trace]; rewrite count_events_app, count_failure_events_get.
  - split; [lia|]. rewrite H6. reflexivity.
  - split; [lia|]. destruct Htail as [->|[r ->]]; cbn; lia.
Qed.

(** X3: every GET of a call, first attempt and retries alike, is the same
    request: the session's base address followed by [uri], the headers
    given (the [Content-Type] default when none or an empty dictionary is
    given), the key with the password ["X"], and the [verify_ssl] flag. *)
Theorem every_attempt_is_the_same_request (return_json : bool) :
  Forall (fun ev => is_get ev = true -> ev = the_get)
         (trace (snd (run return_json))).
Proof.
  destruct (run_shape return_json)
    as (res & n & tail & -> & [(_ & _ & -> & _)|(_ & _ & Htail & _)]);
    cbn [snd trace]; apply Forall_app; split;
    try apply failure_events_gets_uniform.
  - constructor.
  - destruct Htail as [->|[r ->]]; repeat constructor; discriminate.
Qed.


(** X5: no call ever pauses or writes to standard output, whatever the
    network answers: the only place that would, the rate-limit branch,
    raises first. *)
Theorem never_sleeps_nor_prints (return_json : bool) :
  count_events is_sleep (trace (snd (run return_json))) = 0%nat
  /\ count_events is_stdout (trace (snd (run return_json))) = 0%nat.
Proof.
  destruct (run_shape return_json)
    as (res & n & tail & -> & [(_ & _ & -> & _)|(_ & _ & Htail & _)]);
    cbn [snd trace]; rewrite !count_events_app,
      !count_failure_events_other by reflexivity.
  - now split.
  - destruct Htail as [->|[r ->]]; now split.
Qed.

(** X6: the error stream holds one report per retried failure: six lines
    after six GETs when the call gives up with [APIConnectionError], and in
    every other outcome one line fewer than the GETs issued (the last GET
    is never reported). *)
Theorem reports_match_attempts (return_json : bool) :
  (fst (run return_json) = exhausted
   /\ issued (snd (run return_json)) = 6%nat
   /\ length (stderr_lines (trace (snd (run return_json)))) = 6%nat)
  \/ (fst (run return_json) <> exhausted
      /\ S (length (stderr_lines (trace (snd (run return_json)))))
         = issued (snd (run return_json))).
Proof.
  destruct (run_shape return_json)
    as (res & n & tail & -> &
        [(H6 & -> & -> & ->)|(_ & -> & Htail & Hres & _)]);
    cbn [fst snd issued trace];
    rewrite stderr_lines_app, stderr_failure_events, length_app,
      reports_length.
  - left. rewrite H6. now repeat split.
  - right. split.
    + intros He. destruct (Hres _ He) as [(x & _ & Hx)|[_ Hx]];
        discriminate Hx.
    + destruct Htail as [->|[r ->]]; cbn; lia.
Qed.

End AnyNetwork.

(** ** More on the session constructor *)

Lemma drop_last_keeps_http (s : string) :
  PyStr.startswith s "http" = true ->
  PyStr.endswith_char s "/" = true ->
  PyStr.startswith (PyStr.drop_last s) "http" = true.
Proof.
  intros Hs He.
  apply endswith_char_inv in He as [u ->]. rewrite drop_last_app.
  apply startswith_inv in Hs as [t Ht].
  destruct u as [|c1 [|c2 [|c3 [|c4 u]]]]; simpl in Ht;
    try discriminate Ht.
  injection Ht as -> -> -> -> _. reflexivity.
Qed.

Lemma startswith_http_slash (s : string) :
  PyStr.startswith (s ++ "/") "http" = PyStr.startswith s "http".
Proof.
  destruct s as [|c1 [|c2 [|c3 [|c4 s]]]]; simpl;
    repeat match goal with
           | |- context [Ascii.eqb ?a ?b] => destruct (Ascii.eqb a b); simpl
           end; reflexivity.
Qed.

Lemma endswith_char_app_r (p s : string) (c : ascii) :
  s <> EmptyString ->
  PyStr.endswith_char (p ++ s) c = PyStr.endswith_char s c.
Proof.
  intros Hs. induction p as [|a p IH]; [reflexivity|].
  simpl. destruct (p ++ s) eqn:E; [|exact IH].
  destruct p; simpl in E; [contradiction | discriminate].
Qed.

(** X7: a session that was constructed has a non-empty address and key;
    the key is the one given, the address starts with [http], and the base
    address is the address followed by ["/api/v2/"]. *)
Theorem constructed_session_invariants (v : string) (d k : option string)
    (s : FreshPy) :
  FreshPy_init v d k = Return s ->
  domain s <> EmptyString
  /\ api_key s <> EmptyString
  /\ k = Some (api_key s)
  /\ version s = v
  /\ PyStr.startswith (domain s) "http" = true
  /\ base_url s = domain s ++ "/api/v2/".
Proof.
  unfold FreshPy_init.
  destruct d as [[|a ds]|], k as [[|b ks]|];
    cbn [py_not PyStr.truthy negb orb andb]; try discriminate.
  set (d1 := if negb _ then _ else _).
  assert (H1 : PyStr.startswith d1 "http" = true).
  { subst d1. destruct (PyStr.startswith (String a ds) "http") eqn:E;
      [exact E | reflexivity]. }
  set (d2 := if PyStr.endswith_char d1 "/" then _ else _).
  assert (H2 : PyStr.startswith d2 "http" = true).
  { subst d2. destruct (PyStr.endswith_char d1 "/") eqn:E;
      [now apply drop_last_keeps_http | exact H1]. }
  intros [= <-]. cbn [domain api_key version base_url].
  repeat split; try discriminate.
  - intros E. rewrite E in H2. discriminate.
  - exact H2.
Qed.

(** X8: one trailing ["/"] makes no difference: an address that is not
    empty and does not end with ["/"] gives the same session, or the same
    exception, with and without a ["/"] appended. *)
Theorem trailing_slash_is_ignored (v ds : string) (k : option string) :
  ds <> EmptyString ->
  PyStr.endswith_char ds "/" = false ->
  FreshPy_init v (Some (ds ++ "/")) k = FreshPy_init v (Some ds) k.
Proof.
  intros Hne Hend. unfold FreshPy_init.
  destruct ds as [|a ds]; [contradiction|].
  change (py_not (Some (String a ds ++ "/"))) with false.
  change (py_not (Some (String a ds))) with false.
  change (PyStr.truthy (String a ds ++ "/")) with true.
  change (PyStr.truthy (String a ds)) with true.
  cbn [orb andb].
  destruct (py_not k); [reflexivity|].
  destruct k as [ks|]; [|reflexivity].
  rewrite startswith_http_slash.
  destruct (negb (PyStr.startswith (String a ds) "http")).
  - rewrite <- app_assoc_str, endswith_char_app, drop_last_app.
    rewrite endswith_char_app_r, Hend by discriminate. reflexivity.
  - rewrite endswith_char_app, drop_last_app, Hend. reflexivity.
Qed.

(** ** Construction followed by a request *)

(** X9: every GET issued by [get] on a constructed session goes to the
    normalized address followed by ["/api/v2/"] and the [uri], and
    authenticates with the key the session was built with and the
    password ["X"]. *)
Theorem session_requests_use_normalized_address
    (net : nat -> get_outcome) (response_json : Response -> result pyval)
    (random_random : Q) (format_2f : Q -> string)
    (v : string) (d k : option string) (s : FreshPy) (ks uri : string)
    (headers : option headers_t) (return_json verify_ssl : bool) :
  FreshPy_init v d k = Return s ->
  k = Some ks ->
  Forall (fun ev =>
            is_get ev = true ->
            ev = EvGet (domain s ++ "/api/v2/" ++ uri)
                       (effective_headers headers) (ks, "X") verify_ssl)
         (trace (snd (FreshPy_get net response_json random_random format_2f
                        s uri headers return_json verify_ssl world0))).
Proof.
  intros Hs ->.
  assert (Hb : base_url s = domain s ++ "/api/v2/" /\ api_key s = ks).
  { unfold FreshPy_init in Hs.
    destruct d as [[|a ds]|], ks as [|b ks];
      cbn [py_not PyStr.truthy negb orb andb] in Hs; try discriminate.
    now injection Hs as <-. }
  destruct Hb as [Hb Hk]. unfold FreshPy_get.
  rewrite <- app_assoc_str, <- Hb, <- Hk.
  destruct (run_shape net response_json random_random format_2f s uri
              headers verify_ssl return_json)
    as (res & n & tail & -> & [(_ & _ & -> & _)|(_ & _ & Htail & _)]);
    cbn [snd trace]; apply Forall_app; split;
    try apply failure_events_gets_uniform.
  - constructor.
  - destruct Htail as [->|[r ->]]; repeat constructor; discriminate.
Qed.

(** ** The further properties on sample inputs *)

Lemma decoded_body_returned_witness :
  sample_run (net_after 1 (GetOk (mkResponse 200 "[]"))) true =
    (Return (VList []),
     mkWorld 2 (sample_failures [connection_error]
                  ++ [sample_get; EvJson (mkResponse 200 "[]")])).
Proof.
  apply (decoded_body_returned
           (net_after 1 (GetOk (mkResponse 200 "[]")))
           sample_json (1 # 2)%Q sample_format sample_session sample_uri
           None true [connection_error] (mkResponse 200 "[]") (VList [])).
  - simpl. repeat split.
  - reflexivity.
  - simpl. lia.
  - reflexivity.
  - simpl. lia.
  - simpl. lia.
  - reflexivity.
Defined.


Lemma constructed_session_invariants_witness :
  domain sample_session <> EmptyString
  /\ api_key sample_session <> EmptyString
  /\ Some "k1" = Some (api_key sample_session)
  /\ version sample_session = "2.0.0"
  /\ PyStr.startswith (domain sample_session) "http" = true
  /\ base_url sample_session = domain sample_session ++ "/api/v2/".
Proof.
  apply (constructed_session_invariants
           "2.0.0" (Some "example.freshservice.com/") (Some "k1")
           sample_session).
  reflexivity.
Defined.

Lemma trailing_slash_is_ignored_witness :
  FreshPy_init "2.0.0" (Some ("example.freshservice.com" ++ "/")) (Some "k1")
  = FreshPy_init "2.0.0" (Some "example.freshservice.com") (Some "k1").
Proof.
  apply (trailing_slash_is_ignored
           "2.0.0" "example.freshservice.com" (Some "k1")).
  - discriminate.
  - reflexivity.
Defined.

Lemma session_requests_use_normalized_address_witness :
  Forall (fun ev =>
            is_get ev = true ->
            ev = EvGet (domain sample_session ++ "/api/v2/" ++ sample_uri)
                       (effective_headers None) ("k1", "X") true)
         (trace (snd (FreshPy_get
                        (net_after 2 (GetOk (mkResponse 200 "[]")))
                        sample_json (1 # 2)%Q sample_format sample_session
                        sample_uri None true true world0))).
Proof.
  apply (session_requests_use_normalized_address
           (net_after 2 (GetOk (mkResponse 200 "[]")))
           sample_json (1 # 2)%Q sample_format
           "2.0.0" (Some "example.freshservice.com") (Some "k1")
           sample_session "k1" sample_uri None true true).
  - reflexivity.
  - reflexivity.
Defined.

(** ** Calls made one after another *)

Lemma world_eta (w : world) : w = mkWorld (issued w + 0) (trace w ++ []).
Proof. rewrite Nat.add_0_r, app_nil_r. now destruct w. Qed.

(** The loop reads the network from the attempt it starts at, and nothing
    else of the world it runs in. *)
Lemma retry_loop_frame url headers auth verify (m : nat) :
  forall retries, remaining retries = m ->
  forall (net net' : nat -> get_outcome) (w w' : world),
    (forall i, net' (issued w' + i)%nat = net (issued w + i)%nat) ->
    exists res n t,
      retry_loop net url headers auth verify retries w
      = (res, mkWorld (issued w + n) (trace w ++ t))
      /\ retry_loop net' url headers auth verify retries w'
         = (res, mkWorld (issued w' + n) (trace w' ++ t)).
Proof.
  induction m as [|m IH]; intros retries Hm net net' w w' Hnet;
    rewrite !retry_loop_eq; destruct (retries <=? 5) eqn:Hle;
    try (exists (Return (retries, None)), 0%nat, [];
         now rewrite <- !world_eta);
    try (apply Z.leb_le in Hle; unfold remaining in Hm; lia).
  unfold requests_get.
  pose proof (Hnet 0%nat) as H0. rewrite !Nat.add_0_r in H0. rewrite H0.
  destruct (net (issued w)) as [r|e|e];
    [| |exists (Abort e), 1%nat, [EvGet url headers auth verify];
        now rewrite !Nat.add_1_r].
  - exists (Return (retries, Some r)), 1%nat, [EvGet url headers auth verify].
    now rewrite !Nat.add_1_r.
  - destruct (is_connection_class e) eqn:He.
    + rewrite !report_connection by exact He. cbn [issued trace].
      assert (Hrem : remaining (retries + 1) = m)
        by (apply Z.leb_le in Hle; unfold remaining in *; lia).
      destruct (IH _ Hrem net net'
                  (mkWorld (S (issued w))
                     ((trace w ++ [EvGet url headers auth verify])
                        ++ [EvStderr (failed_attempt_report e "get" retries)]))
                  (mkWorld (S (issued w'))
                     ((trace w' ++ [EvGet url headers auth verify])
                        ++ [EvStderr (failed_attempt_report e "get" retries)])))
        as (res & n & t & H1 & H2).
      { intros i. cbn [issued].
        replace (S (issued w') + i)%nat with (issued w' + S i)%nat by lia.
        replace (S (issued w) + i)%nat with (issued w + S i)%nat by lia.
        apply Hnet. }
      cbn [issued trace] in H1, H2. rewrite H1, H2.
      exists res, (S n),
        (EvGet url headers auth verify
           :: EvStderr (failed_attempt_report e "get" retries) :: t).
      rewrite <- !app_assoc. cbn [app].
      now rewrite !Nat.add_succ_r.
    + rewrite !report_fatal by exact He.
      eexists _, 1%nat, [EvGet url headers auth verify].
      now rewrite !Nat.add_1_r.
Qed.

(** The statements after the loop only append to the trace; what they
    return and append does not depend on the world. *)
Lemma after_loop_frame response_json random_random format_2f
    (return_json : bool) (retries : Z) (response : option Response) :
  exists res t, forall w,
    after_loop response_json random_random format_2f return_json retries
               response w
    = (res, mkWorld (issued w + 0) (trace w ++ t)).
Proof.
  unfold after_loop, bind, ret, raise, try_except, json_of, load_global,
    _raise_exception_for_repeated_timeouts.
  destruct (retries =? 6);
    [eexists _, []; intros w; now rewrite <- world_eta|].
  destruct return_json;
    [|eexists _, []; intros w; now rewrite <- world_eta].
  destruct response as [r|];
    [|eexists _, []; intros w; now rewrite <- world_eta].
  destruct (status_code r =? 429); cbn;
    [eexists _, []; intros w; now rewrite <- world_eta|].
  destruct (status_code r =? 404);
    [eexists _, []; intros w; now rewrite <- world_eta|].
  destruct (response_json r) as [v|exc|ab];
    eexists _, [EvJson r]; intros w; cbn [issued trace];
    now rewrite Nat.add_0_r.
Qed.

(** X10: the retry state is local to a call.  A call made in a world where
    other requests were issued before behaves as a first call on the rest
    of the network: it gives the same result, issues the same number of
    GETs and appends the same events, so six attempts are available
    again. *)
Theorem calls_do_not_share_retry_state
    (net : nat -> get_outcome) (response_json : Response -> result pyval)
    (random_random : Q) (format_2f : Q -> string)
    (fresh_object : FreshPy) (uri : string) (headers : option headers_t)
    (return_json verify_ssl : bool) (w : world) :
  exists res n t,
    get_request_with_retries net response_json random_random format_2f
      fresh_object uri headers return_json verify_ssl w
    = (res, mkWorld (issued w + n) (trace w ++ t))
    /\ get_request_with_retries (fun i => net (issued w + i)%nat)
         response_json random_random format_2f
         fresh_object uri headers return_json verify_ssl world0
       = (res, mkWorld n t).
Proof.
  unfold get_request_with_retries.
  destruct (retry_loop_frame
              (base_url fresh_object ++ uri)
              (if py_not_headers headers then define_headers
               else match headers with Some h => h | None => [] end)
              (define_auth (api_key fresh_object)) verify_ssl
              _ 0 eq_refl net (fun i => net (issued w + i)%nat) w world0)
    as (res & n & t & -> & ->); [reflexivity|].
  destruct res as [[retries response]|e|e].
  - destruct (after_loop_frame response_json random_random format_2f
                return_json retries response) as (res & t' & H).
    rewrite !H. cbn [issued trace world0 Nat.add app].
    exists res, n, (t ++ t')%list.
    now rewrite !Nat.add_0_r, app_assoc.
  - now exists (Raise e), n, t.
  - now exists (Abort e), n, t.
Qed.
